(** * A shallow embedding of AccountManager and TransactionProcessor

    Source: src/src/AccountManager.cpp, src/inc/AccountManager.hpp,
            src/src/TransactionProcessor.cpp, src/inc/TransactionProcessor.hpp.

    [std::map<std::string, Account>] is a [gmap string Account]; C++ [int]
    counters are [Z] (the model does not wrap them); a C++ [double] is the
    type [double] below: a finite rational, the two infinities, or NaN,
    compared with the IEEE-754 rules (every ordered comparison with NaN is
    false).  Rounding of a finite sum is not modelled: [dadd] adds finite
    values exactly.  The calls to the optional external collaborators
    (data, notification, audit) have no effect on the returned values or on
    the modelled state and are left out; the compliance lookup, which does
    decide results, is an input of [processTransaction]. *)

From Stdlib Require Import QArith Lqa.
From stdpp Require Import base gmap strings list pretty.

(* ------------------------------------------------------------------ *)
(** ** C++ [double] *)

Inductive double : Type :=
| Fin (q : Q)
| PInf
| NInf
| NaN.

Arguments Fin q%_Q.

(** [a < b] *)
Definition dlt (a b : double) : bool :=
  match a, b with
  | Fin x, Fin y => negb (Qle_bool y x)
  | NInf, Fin _ | NInf, PInf | Fin _, PInf => true
  | _, _ => false
  end.

(** [a > b] *)
Definition dgt (a b : double) : bool := dlt b a.

(** [a <= b] *)
Definition dle (a b : double) : bool :=
  match a, b with
  | Fin x, Fin y => Qle_bool x y
  | NaN, _ | _, NaN => false
  | NInf, _ | _, PInf => true
  | _, _ => false
  end.

(** [a + b] (finite sums exact) *)
Definition dadd (a b : double) : double :=
  match a, b with
  | Fin x, Fin y => Fin (x + y)
  | NaN, _ | _, NaN => NaN
  | PInf, NInf | NInf, PInf => NaN
  | PInf, _ | _, PInf => PInf
  | NInf, _ | _, NInf => NInf
  end.

Definition is_nan (a : double) : bool :=
  match a with NaN => true | _ => false end.

(** Double literals used by the source. *)
Definition d0 : double := Fin 0.
Definition d_0_01 : double := Fin (1 # 100).

(* ------------------------------------------------------------------ *)
(** ** AccountManager *)

Module AccountManager.

Local Open Scope Z_scope.

Inductive AccountStatus : Type :=
| ACTIVE
| SUSPENDED
| FROZEN
| CLOSED
| PENDING_VERIFICATION.

Definition AccountStatus_eqb (a b : AccountStatus) : bool :=
  match a, b with
  | ACTIVE, ACTIVE | SUSPENDED, SUSPENDED | FROZEN, FROZEN
  | CLOSED, CLOSED | PENDING_VERIFICATION, PENDING_VERIFICATION => true
  | _, _ => false
  end.

Lemma AccountStatus_eqb_spec a b : AccountStatus_eqb a b = true <-> a = b.
Proof. destruct a, b; simpl; split; congruence. Qed.

Inductive AccountType : Type :=
| CHECKING
| SAVINGS
| INVESTMENT
| BUSINESS.

Record Account : Type := mkAccount {
  accountNumber : string;
  type : AccountType;
  status : AccountStatus;
  balance : double;
  creditLimit : double;
  riskScore : Z;
  isVerified : bool;
  hasFraudAlert : bool
}.

Definition set_status (a : Account) (s : AccountStatus) : Account :=
  mkAccount (accountNumber a) (type a) s (balance a) (creditLimit a)
            (riskScore a) (isVerified a) (hasFraudAlert a).

Definition set_isVerified (a : Account) (v : bool) : Account :=
  mkAccount (accountNumber a) (type a) (status a) (balance a) (creditLimit a)
            (riskScore a) v (hasFraudAlert a).

(** Static members and the global flag [g_complianceAuditMode]. *)
Definition MINIMUM_BALANCE : double := d_0_01.
Definition HIGH_RISK_THRESHOLD : Z := 75.
Definition MAX_ACCOUNTS_PER_USER : nat := 10.

(** The object's fields, with the static [accountCounter] and the global
    [g_complianceAuditMode] the methods read. *)
Record Store : Type := mkStore {
  accounts : gmap string Account;
  suspendedAccountCount : Z;
  accountCounter : Z;
  g_complianceAuditMode : bool
}.

Definition with_accounts (s : Store) (m : gmap string Account) : Store :=
  mkStore m (suspendedAccountCount s) (accountCounter s) (g_complianceAuditMode s).

Definition with_suspended (s : Store) (n : Z) : Store :=
  mkStore (accounts s) n (accountCounter s) (g_complianceAuditMode s).

(** [AccountManager()]: empty map, zero counter.  The static
    [accountCounter] is not reset by the constructor; [init_store] gives it
    its initial value 500000, as for the first manager of the process. *)
Definition init_store (auditMode : bool) : Store :=
  mkStore ∅ 0 500000 auditMode.

(** [oss << "ACC" << ++accountCounter] *)
Definition account_number_of (n : Z) : string :=
  "ACC" +:+ pretty (Z.to_N n).

Definition createAccount (s : Store) (ty : AccountType) (initialBalance : double)
    : string * Store :=
  if dlt initialBalance MINIMUM_BALANCE then (EmptyString, s)
  else if decide (MAX_ACCOUNTS_PER_USER <= size (accounts s))%nat then (EmptyString, s)
  else
    let n := accountCounter s + 1 in
    let num := account_number_of n in
    let acc := mkAccount num ty PENDING_VERIFICATION initialBalance d0 0 false false in
    (num, mkStore (<[num := acc]> (accounts s)) (suspendedAccountCount s) n
                  (g_complianceAuditMode s)).

Definition activateAccount (s : Store) (id : string) : bool * Store :=
  match accounts s !! id with
  | None => (false, s)
  | Some acc =>
      if AccountStatus_eqb (status acc) PENDING_VERIFICATION && negb (isVerified acc)
      then (false, s)
      else if AccountStatus_eqb (status acc) CLOSED || AccountStatus_eqb (status acc) FROZEN
      then (false, s)
      else (true, with_accounts s (<[id := set_status acc ACTIVE]> (accounts s)))
  end.

(** The [reason] argument is not used by the source. *)
Definition suspendAccount (s : Store) (id : string) (reason : string) : bool * Store :=
  match accounts s !! id with
  | None => (false, s)
  | Some acc =>
      if AccountStatus_eqb (status acc) CLOSED then (false, s)
      else (true, mkStore (<[id := set_status acc SUSPENDED]> (accounts s))
                          (suspendedAccountCount s + 1) (accountCounter s)
                          (g_complianceAuditMode s))
  end.

Definition deactivateAccount (s : Store) (id : string) : bool * Store :=
  match accounts s !! id with
  | None => (false, s)
  | Some acc =>
      if AccountStatus_eqb (status acc) CLOSED then (false, s)
      else if dgt (balance acc) d0 then (false, s)
      else (true, with_accounts s (<[id := set_status acc CLOSED]> (accounts s)))
  end.

(** The three score bands of [evaluateAccountRisk], in source order. *)
Definition frequency_points (transactionCount : Z) : Z :=
  if Z.gtb transactionCount 100 then 30
  else if Z.gtb transactionCount 50 then 15
  else if Z.gtb transactionCount 20 then 5
  else 0.

Definition volume_points (volumeLastDay : double) : Z :=
  if dgt volumeLastDay (Fin 1000000) then 40
  else if dgt volumeLastDay (Fin 500000) then 20
  else if dgt volumeLastDay (Fin 100000) then 10
  else 0.

Definition flag_points (acc : Account) : Z :=
  if negb (isVerified acc) && hasFraudAlert acc then 35
  else if negb (isVerified acc) then 20
  else if hasFraudAlert acc then 25
  else 0.

Definition evaluateAccountRisk (s : Store) (id : string) (transactionCount : Z)
    (volumeLastDay : double) : AccountStatus * Store :=
  match accounts s !! id with
  | None => (CLOSED, s)
  | Some acc =>
      let riskScore := 0 + frequency_points transactionCount
                         + volume_points volumeLastDay + flag_points acc in
      if Z.geb riskScore HIGH_RISK_THRESHOLD && g_complianceAuditMode s then
        (FROZEN, with_accounts s (<[id := set_status acc FROZEN]> (accounts s)))
      else if Z.geb riskScore HIGH_RISK_THRESHOLD then
        (SUSPENDED, mkStore (<[id := set_status acc SUSPENDED]> (accounts s))
                            (suspendedAccountCount s + 1) (accountCounter s)
                            (g_complianceAuditMode s))
      else if Z.gtb riskScore 50 then (PENDING_VERIFICATION, s)
      else (ACTIVE, s)
  end.

Definition updateAccountStatus (s : Store) (id : string) (newStatus : AccountStatus)
    : bool * Store :=
  match accounts s !! id with
  | None => (false, s)
  | Some acc =>
      let blocked :=
        if AccountStatus_eqb (status acc) CLOSED && negb (AccountStatus_eqb newStatus CLOSED)
        then true
        else if AccountStatus_eqb (status acc) FROZEN && AccountStatus_eqb newStatus ACTIVE
        then negb (isVerified acc) || hasFraudAlert acc
        else if AccountStatus_eqb newStatus SUSPENDED && Z.ltb (riskScore acc) HIGH_RISK_THRESHOLD
        then AccountStatus_eqb (status acc) ACTIVE
        else false in
      if blocked then (false, s)
      else
        let cnt :=
          if AccountStatus_eqb (status acc) SUSPENDED && AccountStatus_eqb newStatus ACTIVE
          then suspendedAccountCount s - 1
          else if negb (AccountStatus_eqb (status acc) SUSPENDED)
                  && AccountStatus_eqb newStatus SUSPENDED
          then suspendedAccountCount s + 1
          else suspendedAccountCount s in
        (true, mkStore (<[id := set_status acc newStatus]> (accounts s)) cnt
                       (accountCounter s) (g_complianceAuditMode s))
  end.

Definition verifyAccount (s : Store) (id : string) (verificationResult : bool)
    : bool * Store :=
  match accounts s !! id with
  | None => (false, s)
  | Some acc =>
      let acc1 := set_isVerified acc verificationResult in
      if verificationResult && AccountStatus_eqb (status acc1) PENDING_VERIFICATION then
        (true, with_accounts s (<[id := set_status acc1 ACTIVE]> (accounts s)))
      else (false, with_accounts s (<[id := acc1]> (accounts s)))
  end.

Definition getSuspendedAccountCount (s : Store) : Z := suspendedAccountCount s.

(** [getAccount]: a handle to the stored record, or [nullptr]. *)
Definition getAccount (s : Store) (id : string) : option Account := accounts s !! id.

(** [getAccountBalance]: the stored balance, or [-1.0] for an unknown id. *)
Definition getAccountBalance (s : Store) (id : string) : double :=
  match accounts s !! id with
  | None => Fin (-1)
  | Some acc => balance acc
  end.

End AccountManager.

(* ------------------------------------------------------------------ *)
(** ** Sequences of store operations *)

Module AccountTrace.

Import AccountManager.
Local Open Scope Z_scope.

Inductive StoreOp : Type :=
| OpCreate (ty : AccountType) (initialBalance : double)
| OpActivate (id : string)
| OpSuspend (id : string) (reason : string)
| OpDeactivate (id : string)
| OpEvaluate (id : string) (transactionCount : Z) (volumeLastDay : double)
| OpUpdate (id : string) (newStatus : AccountStatus)
| OpVerify (id : string) (verificationResult : bool).

Definition step (s : Store) (op : StoreOp) : Store :=
  match op with
  | OpCreate ty b => snd (createAccount s ty b)
  | OpActivate id => snd (activateAccount s id)
  | OpSuspend id r => snd (suspendAccount s id r)
  | OpDeactivate id => snd (deactivateAccount s id)
  | OpEvaluate id tc v => snd (evaluateAccountRisk s id tc v)
  | OpUpdate id st => snd (updateAccountStatus s id st)
  | OpVerify id r => snd (verifyAccount s id r)
  end.

Definition run (s : Store) (ops : list StoreOp) : Store := fold_left step ops s.

(** Number of stored records whose status is SUSPENDED. *)
Definition suspended_records (s : Store) : nat :=
  length (filter (fun kv : string * Account => AccountStatus_eqb (status kv.2) SUSPENDED = true)
                 (map_to_list (accounts s))).

Definition status_of (s : Store) (id : string) : option AccountStatus :=
  status <$> accounts s !! id.

(** What [createAccount] and the status operations keep: the counter is at
    least its initial value, at most ten records are stored, and every
    record sits under its own [accountNumber], of the form
    ["ACC" ++ n] for an [n] already handed out. *)
Definition store_inv (s : Store) : Prop :=
  500000 <= accountCounter s /\ (size (accounts s) <= MAX_ACCOUNTS_PER_USER)%nat /\
  forall k acc, accounts s !! k = Some acc ->
    accountNumber acc = k /\
    exists n, 500000 < n <= accountCounter s /\ k = account_number_of n.



End AccountTrace.

(* ------------------------------------------------------------------ *)
(** ** TransactionProcessor *)

Module TransactionProcessor.

Local Open Scope Z_scope.

Inductive TransactionStatus : Type :=
| PENDING
| APPROVED
| REJECTED
| CANCELLED
| COMPLETED.

Inductive TransactionType : Type :=
| DEPOSIT
| WITHDRAWAL
| TRANSFER
| REFUND.

Inductive ComplianceLevel : Type :=
| LOW_RISK
| MEDIUM_RISK
| HIGH_RISK
| BLOCKED.

Definition TransactionStatus_eqb (a b : TransactionStatus) : bool :=
  match a, b with
  | PENDING, PENDING | APPROVED, APPROVED | REJECTED, REJECTED
  | CANCELLED, CANCELLED | COMPLETED, COMPLETED => true
  | _, _ => false
  end.

Definition TransactionType_eqb (a b : TransactionType) : bool :=
  match a, b with
  | DEPOSIT, DEPOSIT | WITHDRAWAL, WITHDRAWAL | TRANSFER, TRANSFER
  | REFUND, REFUND => true
  | _, _ => false
  end.

Definition ComplianceLevel_eqb (a b : ComplianceLevel) : bool :=
  match a, b with
  | LOW_RISK, LOW_RISK | MEDIUM_RISK, MEDIUM_RISK | HIGH_RISK, HIGH_RISK
  | BLOCKED, BLOCKED => true
  | _, _ => false
  end.

Record Transaction : Type := mkTransaction {
  id : Z;
  type : TransactionType;
  amount : double;
  sourceAccount : string;
  destAccount : string;
  timestamp : Z;
  status : TransactionStatus
}.

(** Static members. *)
Definition MIN_TRANSACTION_AMOUNT : double := d_0_01.
Definition MAX_TRANSACTION_AMOUNT : double := Fin 1000000.
Definition MAX_DAILY_TRANSACTIONS : Z := 1000.

(** The object's fields, the static [transactionCounter] and the global
    [g_systemLocked] read by [executeTransfer].  The process-wide totals
    [g_totalTransactionsProcessed] and [g_totalVolumeProcessed] are written
    but never read by the class and are left out. *)
Record Engine : Type := mkEngine {
  transactionHistory : list Transaction;
  dailyVolume : double;
  dailyTransactionCount : Z;
  transactionCounter : Z;
  g_systemLocked : bool
}.

(** [TransactionProcessor()]: empty history, zero volume and count.  The
    static [transactionCounter] is not reset by the constructor;
    [init_engine] gives it its initial value 1000, as for the first
    processor of the process. *)
Definition init_engine (locked : bool) : Engine := mkEngine [] d0 0 1000 locked.

Definition validateTransaction (amount : double) (ty : TransactionType) : bool :=
  if dlt amount MIN_TRANSACTION_AMOUNT then false
  else if dgt amount MAX_TRANSACTION_AMOUNT then false
  else if TransactionType_eqb ty WITHDRAWAL && dgt amount (Fin 50000) then false
  else if TransactionType_eqb ty REFUND && dgt amount (Fin 10000) then false
  else true.

Definition executeTransfer (e : Engine) (amount : double) (source destination : string)
    (isUrgent : bool) : TransactionStatus :=
  if String.eqb source EmptyString || String.eqb destination EmptyString then REJECTED
  else if String.eqb source destination then
    (if dgt amount d0 then REJECTED else CANCELLED)
  else
    let urgent_check :=
      if isUrgent && dgt amount (Fin 100000) then
        if Z.geb (dailyTransactionCount e) MAX_DAILY_TRANSACTIONS then Some REJECTED
        else if dgt (dadd (dailyVolume e) amount) (Fin 5000000) then Some REJECTED
        else None
      else None in
    match urgent_check with
    | Some r => r
    | None =>
      if g_systemLocked e && negb isUrgent then PENDING
      else if g_systemLocked e && isUrgent then APPROVED
      else if dgt amount d0 && Z.ltb (dailyTransactionCount e) MAX_DAILY_TRANSACTIONS
              && dle (dadd (dailyVolume e) amount) (Fin 5000000) then COMPLETED
      else if dgt amount d0 && Z.ltb (dailyTransactionCount e) MAX_DAILY_TRANSACTIONS
      then APPROVED
      else if dgt amount d0 then PENDING
      else CANCELLED
    end.

(** [logTransaction]: append to the history (the audit calls have no
    modelled effect). *)
Definition logTransaction (e : Engine) (t : Transaction) : Engine :=
  mkEngine (transactionHistory e ++ [t]) (dailyVolume e) (dailyTransactionCount e)
           (transactionCounter e) (g_systemLocked e).

(** [compliance] is [None] when no compliance service is attached, and
    [Some l] when the service answers [l] for [sourceAccount]; [now] is
    [time(nullptr)]. *)
Definition processTransaction (e : Engine) (compliance : option ComplianceLevel) (now : Z)
    (ty : TransactionType) (amount : double) (sourceAccount destAccount : string)
    : TransactionStatus * Engine :=
  if negb (validateTransaction amount ty) then (REJECTED, e)
  else
  let compliance_rejects :=
    match compliance with
    | None => false
    | Some lvl =>
        ComplianceLevel_eqb lvl BLOCKED
        || (ComplianceLevel_eqb lvl HIGH_RISK && dgt amount (Fin 50000))
    end in
  if compliance_rejects then (REJECTED, e)
  else
  let '(st, vol) :=
    match ty with
    | TRANSFER => (executeTransfer e amount sourceAccount destAccount false, dailyVolume e)
    | DEPOSIT =>
        if dgt amount d0 && Z.ltb (dailyTransactionCount e) MAX_DAILY_TRANSACTIONS
        then (COMPLETED, dadd (dailyVolume e) amount)
        else (REJECTED, dailyVolume e)
    | WITHDRAWAL =>
        if dgt amount d0 && dle amount (Fin 50000)
           && Z.ltb (dailyTransactionCount e) MAX_DAILY_TRANSACTIONS
        then (COMPLETED, dadd (dailyVolume e) amount)
        else if Z.geb (dailyTransactionCount e) MAX_DAILY_TRANSACTIONS
        then (REJECTED, dailyVolume e)
        else (PENDING, dailyVolume e)
    | REFUND =>
        if dgt amount d0 && dle amount (Fin 10000) then (COMPLETED, dailyVolume e)
        else if dgt amount (Fin 10000) then (PENDING, dailyVolume e)
        else (PENDING, dailyVolume e)   (* [status] keeps its initial PENDING *)
    end in
  let e1 := mkEngine (transactionHistory e) vol (dailyTransactionCount e)
                     (transactionCounter e) (g_systemLocked e) in
  if negb (TransactionStatus_eqb st REJECTED) && negb (TransactionStatus_eqb st CANCELLED) then
    let n := transactionCounter e1 + 1 in
    let e2 := mkEngine (transactionHistory e1) (dailyVolume e1) (dailyTransactionCount e1)
                       n (g_systemLocked e1) in
    let e3 := logTransaction e2
                (mkTransaction n ty amount sourceAccount destAccount now st) in
    (st, mkEngine (transactionHistory e3) (dailyVolume e3) (dailyTransactionCount e3 + 1)
                  (transactionCounter e3) (g_systemLocked e3))
  else (st, e1).

Definition resetDailyLimits (e : Engine) : bool * Engine :=
  (true, mkEngine (transactionHistory e) d0 0 (transactionCounter e) (g_systemLocked e)).

Definition getDailyVolume (e : Engine) : double := dailyVolume e.
Definition getTransactionCount (e : Engine) : Z := dailyTransactionCount e.

End TransactionProcessor.

(* ------------------------------------------------------------------ *)
(** ** Sequences of engine operations *)

Module EngineTrace.

Import TransactionProcessor.

(** [OpSetLock] is an assignment to the global [g_systemLocked]. *)
Inductive EngineOp : Type :=
| OpProcess (compliance : option ComplianceLevel) (now : Z) (ty : TransactionType)
            (amount : double) (sourceAccount destAccount : string)
| OpReset
| OpSetLock (b : bool).

Definition step_out (e : Engine) (op : EngineOp) : option TransactionStatus * Engine :=
  match op with
  | OpProcess c now ty a src dst =>
      let '(r, e') := processTransaction e c now ty a src dst in (Some r, e')
  | OpReset => (None, snd (resetDailyLimits e))
  | OpSetLock b =>
      (None, mkEngine (transactionHistory e) (dailyVolume e) (dailyTransactionCount e)
                      (transactionCounter e) b)
  end.

Definition step (e : Engine) (op : EngineOp) : Engine := snd (step_out e op).

Definition run (e : Engine) (ops : list EngineOp) : Engine := fold_left step ops e.

Definition accepted (r : TransactionStatus) : bool :=
  negb (TransactionStatus_eqb r REJECTED) && negb (TransactionStatus_eqb r CANCELLED).

(** Along a run: the history length at the last reset, and the number of
    [processTransaction] calls since then whose result is accepted. *)
Fixpoint since_reset (e : Engine) (ops : list EngineOp) (m k : nat) : nat * nat :=
  match ops with
  | [] => (m, k)
  | op :: rest =>
      let '(r, e') := step_out e op in
      match op, r with
      | OpReset, _ => since_reset e' rest (length (transactionHistory e')) 0
      | _, Some r' => since_reset e' rest m (if accepted r' then S k else k)
      | _, None => since_reset e' rest m k
      end
  end.

(** Sum of the DEPOSIT and WITHDRAWAL amounts of journal entries, added in
    journal order starting from [0.0]. *)
Definition dw_step (v : double) (t : Transaction) : double :=
  match type t with
  | DEPOSIT | WITHDRAWAL => dadd v (amount t)
  | _ => v
  end.

Definition dw_volume (ts : list Transaction) : double := fold_left dw_step ts d0.

Definition op_amount_not_nan (op : EngineOp) : bool :=
  match op with
  | OpProcess _ _ _ a _ _ => negb (is_nan a)
  | _ => true
  end.




End EngineTrace.

(* ------------------------------------------------------------------ *)
(** ** Example inputs *)

Module Examples.

Module StoreInputs.
Import AccountManager AccountTrace.
Local Open Scope Z_scope.

(** Open one CHECKING account with 100.0. *)
Definition create100 : list StoreOp := [OpCreate CHECKING (Fin 100)].

(** Open it, then close it through [updateAccountStatus]. *)
Definition close_ops : list StoreOp :=
  [OpCreate CHECKING (Fin 100); OpUpdate "ACC500001" CLOSED].

(** Open it, then freeze it through [updateAccountStatus]. *)
Definition freeze_ops : list StoreOp :=
  [OpCreate CHECKING (Fin 100); OpUpdate "ACC500001" FROZEN].

(** The record [createAccount] stores for [create100]. *)
Definition pending_acc : Account :=
  mkAccount "ACC500001" CHECKING PENDING_VERIFICATION (Fin 100) d0 0 false false.

End StoreInputs.

Module EngineInputs.
Import TransactionProcessor.
Local Open Scope Z_scope.

(** An engine that has counted 1000 transactions today. *)
Definition full_day : Engine := mkEngine [] d0 1000 1000 false.

End EngineInputs.

End Examples.

(* ------------------------------------------------------------------ *)
(** ** Properties of the account store *)

Module AccountProofs.

Import AccountManager AccountTrace.
Local Open Scope Z_scope.

Lemma frequency_points_eq (tc : Z) :
  frequency_points tc =
  if 100 <? tc then 30 else if 50 <? tc then 15 else if 20 <? tc then 5 else 0.
Proof. unfold frequency_points. rewrite !Z.gtb_ltb. reflexivity. Qed.

Lemma AccountStatus_eqb_refl a : AccountStatus_eqb a a = true.
Proof. by destruct a. Qed.

(** C1: [evaluateAccountRisk] on a stored account sums the frequency,
    volume and flag bands, then freezes (audit mode) or suspends and counts
    when the score reaches 75, and otherwise reports PENDING_VERIFICATION
    (score above 50) or ACTIVE without touching the store. *)
Theorem evaluateAccountRisk_bands (s : Store) (id : string) (acc : Account)
    (transactionCount : Z) (volumeLastDay : double) :
  accounts s !! id = Some acc ->
  let freq := if 100 <? transactionCount then 30
              else if 50 <? transactionCount then 15
              else if 20 <? transactionCount then 5 else 0 in
  let vol := if dgt volumeLastDay (Fin 1000000) then 40
             else if dgt volumeLastDay (Fin 500000) then 20
             else if dgt volumeLastDay (Fin 100000) then 10 else 0 in
  let flags := if negb (isVerified acc) && hasFraudAlert acc then 35
               else if negb (isVerified acc) then 20
               else if hasFraudAlert acc then 25 else 0 in
  let score := freq + vol + flags in
  let '(r, s') := evaluateAccountRisk s id transactionCount volumeLastDay in
  (75 <= score -> g_complianceAuditMode s = true ->
     r = FROZEN /\ accounts s' = <[id := set_status acc FROZEN]> (accounts s)
     /\ suspendedAccountCount s' = suspendedAccountCount s) /\
  (75 <= score -> g_complianceAuditMode s = false ->
     r = SUSPENDED /\ accounts s' = <[id := set_status acc SUSPENDED]> (accounts s)
     /\ suspendedAccountCount s' = suspendedAccountCount s + 1) /\
  (50 < score < 75 -> r = PENDING_VERIFICATION /\ s' = s) /\
  (score <= 50 -> r = ACTIVE /\ s' = s).
Proof.
  intros Hacc freq vol flags score.
  unfold evaluateAccountRisk. rewrite Hacc.
  assert (E : 0 + frequency_points transactionCount + volume_points volumeLastDay
              + flag_points acc = score)
    by (unfold score, freq, vol, flags; rewrite frequency_points_eq; reflexivity).
  rewrite E. clearbody score. clear E.
  destruct (Z.geb_spec score HIGH_RISK_THRESHOLD) as [Hge | Hlt];
    unfold HIGH_RISK_THRESHOLD in *.
  - destruct (g_complianceAuditMode s) eqn:Ha; simpl.
    + repeat split; intros; try lia; congruence.
    + repeat split; intros; try lia; congruence.
  - rewrite andb_false_l.
    destruct (Z.gtb_spec score 50); simpl; repeat split; intros; lia.
Qed.

(** C2 (defect): create one account and suspend it twice; the counter
    reads 2 while one record is SUSPENDED. *)
Theorem suspended_counter_double_suspend :
  let s := run (init_store false)
             [OpCreate CHECKING (Fin 100); OpSuspend "ACC500001" EmptyString;
              OpSuspend "ACC500001" EmptyString] in
  getSuspendedAccountCount s = 2 /\ suspended_records s = 1%nat.
Proof. vm_compute. split; reflexivity. Qed.

(** The same counter after suspending and reactivating one account. *)
Lemma suspended_counter_after_activate :
  let s := run (init_store false)
             [OpCreate CHECKING (Fin 100); OpSuspend "ACC500001" EmptyString;
              OpActivate "ACC500001"] in
  getSuspendedAccountCount s = 1 /\ suspended_records s = 0%nat.
Proof. vm_compute. split; reflexivity. Qed.

(** C3 (defect): an account closed through [updateAccountStatus] is moved
    out of CLOSED by a high-risk [evaluateAccountRisk]. *)
Theorem closed_account_reopened_by_risk :
  let s1 := run (init_store false)
              [OpCreate CHECKING (Fin 100); OpUpdate "ACC500001" CLOSED] in
  let '(r, s2) := evaluateAccountRisk s1 "ACC500001" 200 (Fin 2000000) in
  status_of s1 "ACC500001" = Some CLOSED /\ r = SUSPENDED
  /\ status_of s2 "ACC500001" = Some SUSPENDED.
Proof. vm_compute. repeat split. Qed.

(** C4 (defect): SUSPENDED -> FROZEN through [updateAccountStatus]
    succeeds and leaves the suspended counter unchanged. *)
Theorem update_suspended_to_frozen_keeps_counter :
  let s1 := run (init_store false)
              [OpCreate CHECKING (Fin 100); OpUpdate "ACC500001" SUSPENDED] in
  let '(ok, s2) := updateAccountStatus s1 "ACC500001" FROZEN in
  status_of s1 "ACC500001" = Some SUSPENDED /\ getSuspendedAccountCount s1 = 1
  /\ ok = true /\ status_of s2 "ACC500001" = Some FROZEN
  /\ getSuspendedAccountCount s2 = 1.
Proof. vm_compute. repeat split. Qed.

(** C8: [verifyAccount] always records [verificationResult] in
    [isVerified]; it returns true exactly when the result is true and the
    account was PENDING_VERIFICATION, and then (only then) sets ACTIVE;
    an unknown id returns false and leaves the store as it is. *)
Theorem verifyAccount_spec (s : Store) (id : string) (verificationResult : bool) :
  match accounts s !! id with
  | None => verifyAccount s id verificationResult = (false, s)
  | Some acc =>
      let '(ok, s') := verifyAccount s id verificationResult in
      (ok = true <-> verificationResult = true /\ status acc = PENDING_VERIFICATION) /\
      (exists acc', accounts s' !! id = Some acc'
                    /\ isVerified acc' = verificationResult
                    /\ status acc' = (if ok then ACTIVE else status acc)
                    /\ accounts s' = <[id := acc']> (accounts s)) /\
      suspendedAccountCount s' = suspendedAccountCount s
  end.
Proof.
  unfold verifyAccount. destruct (accounts s !! id) as [acc |] eqn:Hacc; [| reflexivity].
  destruct verificationResult; simpl;
    destruct (status acc) eqn:Hst; simpl;
    (split; [split; [intros; rewrite ?Hst; try discriminate; auto
                   | intros [? ?]; try discriminate; congruence] |]);
    (split; [eexists; split; [apply lookup_insert_eq | repeat split; simpl; auto] |]);
    simpl; rewrite ?Hst; auto.
Qed.

(** C10: a SUSPENDED account is reactivated whatever its verification and
    fraud flags, and the suspended counter is not decremented. *)
Theorem activate_suspended (s : Store) (id : string) (acc : Account) :
  accounts s !! id = Some acc -> status acc = SUSPENDED ->
  activateAccount s id = (true, with_accounts s (<[id := set_status acc ACTIVE]> (accounts s)))
  /\ suspendedAccountCount (snd (activateAccount s id)) = suspendedAccountCount s.
Proof.
  intros Hacc Hst. unfold activateAccount. rewrite Hacc, Hst. simpl. auto.
Qed.

End AccountProofs.

(* ------------------------------------------------------------------ *)
(** ** Properties of the transaction engine *)

Module EngineProofs.

Import TransactionProcessor EngineTrace.
Local Open Scope Z_scope.

Lemma Qle_bool_true (x y : Q) : Qle_bool x y = true <-> (x <= y)%Q.
Proof. apply Qle_bool_iff. Qed.

Lemma Qle_bool_false (x y : Q) : Qle_bool x y = false <-> (y < x)%Q.
Proof.
  split.
  - intros H. apply Qnot_le_lt. intros Hle. apply Qle_bool_true in Hle. congruence.
  - intros H. destruct (Qle_bool x y) eqn:E; [| reflexivity].
    apply Qle_bool_true in E. lra.
Qed.

(** A withdrawal amount that passes [validateTransaction] and is not NaN
    lies in (0, 50000]. *)
Lemma withdrawal_valid_range (a : double) :
  is_nan a = false -> validateTransaction a WITHDRAWAL = true ->
  dgt a d0 = true /\ dle a (Fin 50000) = true.
Proof.
  intros Hn Hv. destruct a as [q | | |]; try discriminate; unfold validateTransaction in Hv;
    simpl in Hv; try discriminate.
  unfold MIN_TRANSACTION_AMOUNT, MAX_TRANSACTION_AMOUNT, d_0_01 in Hv.
  destruct (Qle_bool (1 # 100) q) eqn:E1; simpl in Hv; [| discriminate].
  destruct (Qle_bool q 1000000) eqn:E2; simpl in Hv; [| discriminate].
  destruct (Qle_bool q 50000) eqn:E3; simpl in Hv; [| discriminate].
  apply Qle_bool_true in E1. unfold dgt, dlt, dle, d0. split; [| exact E3].
  apply negb_true_iff, Qle_bool_false. lra.
Qed.

(** C5: [executeTransfer] follows the five-step rule: empty account ids,
    same account, urgent pre-screen above 100,000, the system lock, then
    the final COMPLETED / APPROVED / PENDING / CANCELLED decision. *)
Theorem executeTransfer_rule (e : Engine) (amount : double) (source dest : string)
    (isUrgent : bool) :
  executeTransfer e amount source dest isUrgent =
  if String.eqb source EmptyString || String.eqb dest EmptyString then REJECTED
  else if String.eqb source dest then (if dgt amount d0 then REJECTED else CANCELLED)
  else if isUrgent && dgt amount (Fin 100000)
          && (Z.leb 1000 (dailyTransactionCount e)
              || dgt (dadd (dailyVolume e) amount) (Fin 5000000)) then REJECTED
  else if g_systemLocked e then (if isUrgent then APPROVED else PENDING)
  else if dgt amount d0 && Z.ltb (dailyTransactionCount e) 1000
          && dle (dadd (dailyVolume e) amount) (Fin 5000000) then COMPLETED
  else if dgt amount d0 && Z.ltb (dailyTransactionCount e) 1000 then APPROVED
  else if dgt amount d0 then PENDING
  else CANCELLED.
Proof.
  unfold executeTransfer, MAX_DAILY_TRANSACTIONS.
  destruct (String.eqb source EmptyString || String.eqb dest EmptyString); [reflexivity |].
  destruct (String.eqb source dest); [reflexivity |].
  rewrite Z.geb_leb.
  destruct isUrgent, (dgt amount (Fin 100000)), (1000 <=? dailyTransactionCount e),
    (dgt (dadd (dailyVolume e) amount) (Fin 5000000)), (g_systemLocked e); reflexivity.
Qed.

(** C7: [validateTransaction] rejects exactly the amounts below 0.01,
    above 1,000,000, withdrawals above 50,000 and refunds above 10,000;
    the boundary values are accepted and the values just past them
    rejected. *)
Theorem validateTransaction_spec :
  (forall (amount : double) (ty : TransactionType),
     validateTransaction amount ty = false <->
     dlt amount (Fin (1 # 100)) = true \/ dgt amount (Fin 1000000) = true
     \/ (ty = WITHDRAWAL /\ dgt amount (Fin 50000) = true)
     \/ (ty = REFUND /\ dgt amount (Fin 10000) = true)) /\
  (forall ty, validateTransaction (Fin (1 # 100)) ty = true) /\
  (forall ty, validateTransaction (Fin (9 # 1000)) ty = false) /\
  validateTransaction (Fin 50000) WITHDRAWAL = true /\
  validateTransaction (Fin (5000001 # 100)) WITHDRAWAL = false /\
  validateTransaction (Fin 10000) REFUND = true /\
  validateTransaction (Fin (1000001 # 100)) REFUND = false.
Proof.
  split; [| repeat split; try intros []; reflexivity].
  intros amount ty. unfold validateTransaction, MIN_TRANSACTION_AMOUNT,
    MAX_TRANSACTION_AMOUNT, d_0_01.
  destruct (dlt amount (Fin (1 # 100))), (dgt amount (Fin 1000000)),
    (dgt amount (Fin 50000)), (dgt amount (Fin 10000)), ty; simpl;
    intuition congruence.
Qed.

(** C9: the withdrawal PENDING branch is reachable: a NaN amount passes
    [validateTransaction] (every comparison with NaN is false) and
    [processTransaction] returns PENDING for a WITHDRAWAL of NaN. *)
Theorem withdrawal_nan_pending :
  fst (processTransaction (init_engine false) None 0 WITHDRAWAL NaN "S" "D") = PENDING.
Proof. reflexivity. Qed.

(** X22: for an amount that is not NaN, a withdrawal is never PENDING: it is
    COMPLETED or REJECTED. *)
Theorem withdrawal_never_pending (e : Engine) (compliance : option ComplianceLevel)
    (now : Z) (amount : double) (source dest : string) :
  is_nan amount = false ->
  let r := fst (processTransaction e compliance now WITHDRAWAL amount source dest) in
  r <> PENDING /\ (r = COMPLETED \/ r = REJECTED).
Proof.
  intros Hn r. subst r. unfold processTransaction.
  destruct (validateTransaction amount WITHDRAWAL) eqn:Hv; cbn -[dgt dle dlt dadd];
    [| split; [discriminate | auto]].
  destruct (withdrawal_valid_range amount Hn Hv) as [Hpos Hle].
  unfold MAX_DAILY_TRANSACTIONS.
  destruct compliance as [[] |]; cbn -[dgt dle dlt dadd];
    try destruct (dgt amount (Fin 50000)); cbn -[dgt dle dlt dadd];
    try (split; [discriminate | auto]);
    rewrite Hpos, Hle; cbn -[dgt dle dlt dadd];
    (destruct (Z.ltb_spec (dailyTransactionCount e) 1000);
     [cbn; split; [discriminate | auto] |
      replace (dailyTransactionCount e >=? 1000) with true
        by (symmetry; apply Z.geb_le; lia);
      cbn; split; [discriminate | auto]]).
Qed.

(** One call: an accepted result appends one entry and counts it; any
    other result leaves history and count alone. *)
Lemma process_history (e : Engine) (c : option ComplianceLevel) (now : Z)
    (ty : TransactionType) (a : double) (src dst : string) :
  let '(r, e') := processTransaction e c now ty a src dst in
  (accepted r = true ->
     transactionHistory e' = transactionHistory e
                             ++ [mkTransaction (transactionCounter e + 1) ty a src dst now r]
     /\ dailyTransactionCount e' = dailyTransactionCount e + 1) /\
  (accepted r = false ->
     transactionHistory e' = transactionHistory e
     /\ dailyTransactionCount e' = dailyTransactionCount e).
Proof.
  unfold processTransaction, accepted.
  repeat (case_match; cbn -[dgt dle dlt dadd] in *); simplify_eq/=;
    split; intros; try discriminate; try congruence; auto.
Qed.

(** One call with a non-NaN amount: the daily volume grows by the amount
    exactly when a DEPOSIT or WITHDRAWAL entry is appended. *)
Lemma process_volume (e : Engine) (c : option ComplianceLevel) (now : Z)
    (ty : TransactionType) (a : double) (src dst : string) :
  is_nan a = false ->
  let '(r, e') := processTransaction e c now ty a src dst in
  dailyVolume e' =
    if accepted r
    then dw_step (dailyVolume e) (mkTransaction (transactionCounter e + 1) ty a src dst now r)
    else dailyVolume e.
Proof.
  intros Hn. unfold processTransaction, accepted.
  destruct (validateTransaction a ty) eqn:Hv; cbn -[dgt dle dlt dadd]; [| reflexivity].
  destruct ty.
  - repeat (case_match; cbn -[dgt dle dlt dadd] in *); simplify_eq/=; reflexivity.
  - destruct (withdrawal_valid_range a Hn Hv) as [Hpos Hle].
    rewrite Hpos, Hle. cbn -[dgt dle dlt dadd]. unfold MAX_DAILY_TRANSACTIONS.
    destruct (Z.ltb_spec (dailyTransactionCount e) 1000);
      [| replace (dailyTransactionCount e >=? 1000) with true
           by (symmetry; apply Z.geb_le; lia)];
      repeat (case_match; cbn -[dgt dle dlt dadd] in *); simplify_eq/=; reflexivity.
  - repeat (case_match; cbn -[dgt dle dlt dadd] in *); simplify_eq/=; reflexivity.
  - repeat (case_match; cbn -[dgt dle dlt dadd] in *); simplify_eq/=; reflexivity.
Qed.

Lemma drop_snoc {A} (m : nat) (l : list A) (x : A) :
  (m <= length l)%nat -> drop m (l ++ [x]) = drop m l ++ [x].
Proof. intros H. apply drop_app_le. exact H. Qed.

Lemma run_cons (e : Engine) (op : EngineOp) (ops : list EngineOp) :
  run e (op :: ops) = run (step e op) ops.
Proof. reflexivity. Qed.

(** Along any run: the daily count is the number of journal entries after
    the last reset, and that is the number of accepted calls since then. *)
Lemma trace_count (ops : list EngineOp) :
  forall (e : Engine) (m k : nat),
  (m <= length (transactionHistory e))%nat ->
  dailyTransactionCount e = Z.of_nat (length (drop m (transactionHistory e))) ->
  length (drop m (transactionHistory e)) = k ->
  let p := since_reset e ops m k in
  let e' := run e ops in
  (fst p <= length (transactionHistory e'))%nat /\
  dailyTransactionCount e' = Z.of_nat (length (drop (fst p) (transactionHistory e'))) /\
  length (drop (fst p) (transactionHistory e')) = snd p.
Proof.
  induction ops as [| op ops IH]; intros e m k Hm Hc Hk; [cbn; auto |].
  rewrite run_cons. destruct op as [c now ty a src dst | | b]; cbn [since_reset].
  - unfold step, step_out.
    pose proof (process_history e c now ty a src dst) as Hph.
    destruct (processTransaction e c now ty a src dst) as [r e'] eqn:Hp.
    cbn [snd]. destruct Hph as [Hacc Hrej].
    destruct (accepted r) eqn:Ha.
    + destruct (Hacc eq_refl) as [Hh Hcnt]. apply IH.
      * rewrite Hh, length_app. simpl. lia.
      * rewrite Hh, drop_snoc, length_app, Hcnt, Hc by exact Hm. simpl. lia.
      * rewrite Hh, drop_snoc, length_app by exact Hm. simpl. lia.
    + destruct (Hrej eq_refl) as [Hh Hcnt]. apply IH; rewrite ?Hh, ?Hcnt; auto.
  - cbn. apply IH; cbn; rewrite ?drop_all; cbn; auto.
  - cbn. apply IH; cbn; auto.
Qed.

(** Along a run whose amounts are never NaN: the daily volume is the sum of
    the DEPOSIT and WITHDRAWAL amounts of the entries after the last reset. *)
Lemma trace_volume (ops : list EngineOp) :
  forallb op_amount_not_nan ops = true ->
  forall (e : Engine) (m k : nat),
  (m <= length (transactionHistory e))%nat ->
  dailyVolume e = dw_volume (drop m (transactionHistory e)) ->
  let p := since_reset e ops m k in
  let e' := run e ops in
  (fst p <= length (transactionHistory e'))%nat /\
  dailyVolume e' = dw_volume (drop (fst p) (transactionHistory e')).
Proof.
  induction ops as [| op ops IH]; intros Hnan e m k Hm Hv; [cbn; auto |].
  cbn [forallb] in Hnan. apply andb_prop in Hnan as [Hop Hnan].
  rewrite run_cons. destruct op as [c now ty a src dst | | b]; cbn [since_reset].
  - unfold step, step_out.
    cbn [op_amount_not_nan] in Hop. apply negb_true_iff in Hop.
    pose proof (process_history e c now ty a src dst) as Hph.
    pose proof (process_volume e c now ty a src dst Hop) as Hpv.
    destruct (processTransaction e c now ty a src dst) as [r e'] eqn:Hp.
    cbn [snd]. destruct Hph as [Hacc Hrej].
    destruct (accepted r) eqn:Ha.
    + destruct (Hacc eq_refl) as [Hh _]. apply IH; [exact Hnan | |].
      * rewrite Hh, length_app. simpl. lia.
      * rewrite Hpv, Hh, drop_snoc by exact Hm.
        unfold dw_volume. rewrite fold_left_app. cbn [fold_left].
        fold (dw_volume (drop m (transactionHistory e))). rewrite <- Hv. reflexivity.
    + destruct (Hrej eq_refl) as [Hh _]. apply IH; [exact Hnan | |]; rewrite ?Hh; auto.
      rewrite Hpv. exact Hv.
  - cbn. apply IH; [exact Hnan | |]; cbn; rewrite ?drop_all; cbn; auto.
  - cbn. apply IH; [exact Hnan | |]; cbn; auto.
Qed.

(** X23: from a fresh engine, the daily count is the number of
    journal entries appended since the last reset, i.e. of calls since then
    whose result is neither REJECTED nor CANCELLED; when no amount is NaN
    the daily volume is the sum of the DEPOSIT and WITHDRAWAL amounts of
    those entries; [resetDailyLimits] returns true, zeroes both counters and
    keeps the journal. *)
Theorem daily_counters_track_journal (locked : bool) (ops : list EngineOp) :
  (let e := run (init_engine locked) ops in
   let p := since_reset (init_engine locked) ops 0 0 in
   let entries := drop (fst p) (transactionHistory e) in
   getTransactionCount e = Z.of_nat (length entries) /\ length entries = snd p /\
   (forallb op_amount_not_nan ops = true -> getDailyVolume e = dw_volume entries)) /\
  (forall e0 : Engine,
     resetDailyLimits e0 =
     (true, mkEngine (transactionHistory e0) d0 0 (transactionCounter e0) (g_systemLocked e0))).
Proof.
  split; [| reflexivity].
  cbv zeta.
  destruct (trace_count ops (init_engine locked) 0 0) as [_ [Hc Hk]]; cbn; auto.
  split; [exact Hc | split; [exact Hk |]].
  intros Hnan.
  destruct (trace_volume ops Hnan (init_engine locked) 0 0) as [_ Hv]; cbn; auto.
Qed.

(** C6: the daily volume is not always the sum of the DEPOSIT and
    WITHDRAWAL amounts journalled since the last reset: one WITHDRAWAL of
    NaN passes validation and is journalled as PENDING while the daily
    volume stays 0, and the sum of the journalled amounts is NaN. *)
Theorem daily_volume_nan_withdrawal :
  let ops := [OpProcess None 0 WITHDRAWAL NaN "S" "D"] in
  let e := run (init_engine false) ops in
  let p := since_reset (init_engine false) ops 0 0 in
  let entries := drop (fst p) (transactionHistory e) in
  length entries = 1%nat /\ getDailyVolume e = d0 /\ dw_volume entries = NaN /\
  getDailyVolume e <> dw_volume entries.
Proof. vm_compute. repeat split. discriminate. Qed.

End EngineProofs.

(* ------------------------------------------------------------------ *)
(** ** The theorems at concrete inputs *)

Module Witnesses.

Import AccountManager AccountTrace AccountProofs.
Import TransactionProcessor EngineTrace EngineProofs.
Local Open Scope Z_scope.

(** A fresh unverified account with 200 transactions and 2,000,000 volume
    scores 30 + 40 + 20 = 90 and is suspended (audit mode off). *)
Lemma evaluateAccountRisk_bands_witness :
  let s := AccountTrace.run (init_store false) [OpCreate CHECKING (Fin 100)] in
  accounts s !! "ACC500001"
    = Some (mkAccount "ACC500001" CHECKING PENDING_VERIFICATION (Fin 100) d0 0 false false)
  /\ fst (evaluateAccountRisk s "ACC500001" 200 (Fin 2000000)) = SUSPENDED
  /\ suspendedAccountCount (snd (evaluateAccountRisk s "ACC500001" 200 (Fin 2000000))) = 1.
Proof.
  cbv zeta.
  assert (H : accounts (AccountTrace.run (init_store false) [OpCreate CHECKING (Fin 100)]) !! "ACC500001"
    = Some (mkAccount "ACC500001" CHECKING PENDING_VERIFICATION (Fin 100) d0 0 false false))
    by (vm_compute; reflexivity).
  split; [exact H |].
  pose proof (evaluateAccountRisk_bands _ _ _ 200 (Fin 2000000) H) as T.
  cbv zeta in T.
  destruct (evaluateAccountRisk (AccountTrace.run (init_store false) [OpCreate CHECKING (Fin 100)])
              "ACC500001" 200 (Fin 2000000)) as [r s'].
  destruct T as [_ [T2 _]].
  destruct T2 as [Hr [_ Hc]]; [vm_compute; discriminate | reflexivity |].
  cbn [fst snd]. rewrite Hc. split; [exact Hr | vm_compute; reflexivity].
Defined.

(** A suspended, unverified account is reactivated. *)
Lemma activate_suspended_witness :
  let s := AccountTrace.run (init_store false)
             [OpCreate CHECKING (Fin 100); OpSuspend "ACC500001" "review"] in
  let acc := mkAccount "ACC500001" CHECKING SUSPENDED (Fin 100) d0 0 false false in
  accounts s !! "ACC500001" = Some acc /\ AccountManager.status acc = SUSPENDED
  /\ fst (activateAccount s "ACC500001") = true.
Proof.
  cbv zeta.
  assert (H1 : accounts (AccountTrace.run (init_store false)
             [OpCreate CHECKING (Fin 100); OpSuspend "ACC500001" "review"]) !! "ACC500001"
           = Some (mkAccount "ACC500001" CHECKING SUSPENDED (Fin 100) d0 0 false false))
    by (vm_compute; reflexivity).
  assert (H2 : AccountManager.status (mkAccount "ACC500001" CHECKING SUSPENDED (Fin 100) d0 0 false false)
               = SUSPENDED) by reflexivity.
  refine (conj H1 (conj H2 _)).
  destruct (activate_suspended _ _ _ H1 H2) as [E _]. rewrite E. reflexivity.
Defined.

(** A withdrawal of 100 is not PENDING. *)
Lemma withdrawal_never_pending_witness :
  is_nan (Fin 100) = false
  /\ fst (processTransaction (init_engine false) None 0 WITHDRAWAL (Fin 100) "S" "D")
     <> PENDING.
Proof.
  assert (H : is_nan (Fin 100) = false) by reflexivity.
  split; [exact H |].
  pose proof (withdrawal_never_pending (init_engine false) None 0 (Fin 100) "S" "D" H) as T.
  cbv zeta in T. destruct T as [T _]. exact T.
Defined.

(** Deposit, reset, withdrawal: the volume is the withdrawn amount. *)
Lemma daily_counters_track_journal_witness :
  let ops := [OpProcess None 0 DEPOSIT (Fin 100) "S" EmptyString; OpReset;
              OpProcess None 1 WITHDRAWAL (Fin 30) "S" EmptyString] in
  forallb op_amount_not_nan ops = true
  /\ getDailyVolume (run (init_engine false) ops)
     = dw_volume (drop (fst (since_reset (init_engine false) ops 0 0))
                       (transactionHistory (run (init_engine false) ops))).
Proof.
  cbv zeta.
  assert (Hn : forallb op_amount_not_nan
                 [OpProcess None 0 DEPOSIT (Fin 100) "S" EmptyString; OpReset;
                  OpProcess None 1 WITHDRAWAL (Fin 30) "S" EmptyString] = true) by reflexivity.
  split; [exact Hn |].
  destruct (daily_counters_track_journal false
              [OpProcess None 0 DEPOSIT (Fin 100) "S" EmptyString; OpReset;
               OpProcess None 1 WITHDRAWAL (Fin 30) "S" EmptyString]) as [T _].
  cbv zeta in T. destruct T as [_ [_ T]]. exact (T Hn).
Defined.

End Witnesses.

(* ------------------------------------------------------------------ *)
(** ** Further properties of the account store *)

Module StoreFacts.

Import AccountManager AccountTrace.
Local Open Scope Z_scope.

Lemma account_number_of_inj (n m : Z) :
  0 <= n -> 0 <= m -> account_number_of n = account_number_of m -> n = m.
Proof.
  unfold account_number_of. intros Hn Hm H.
  apply (inj (String.app "ACC")) in H. apply (inj pretty) in H.
  apply Z2N.inj in H; assumption.
Qed.

Lemma account_number_of_nonempty (n : Z) : account_number_of n <> EmptyString.
Proof. unfold account_number_of. discriminate. Qed.

Lemma store_inv_init (auditMode : bool) : store_inv (init_store auditMode).
Proof.
  unfold store_inv, init_store. cbn. split; [lia |]. split; [rewrite map_size_empty; lia |].
  intros k acc H. rewrite lookup_empty in H. discriminate.
Qed.

(** Replacing a stored record by one with the same number keeps the
    invariant, whatever the counter of suspended accounts becomes. *)
Lemma store_inv_replace (s : Store) (id : string) (acc acc' : Account) (cnt : Z) :
  store_inv s -> accounts s !! id = Some acc -> accountNumber acc' = accountNumber acc ->
  store_inv (mkStore (<[id := acc']> (accounts s)) cnt (accountCounter s)
                     (g_complianceAuditMode s)).
Proof.
  intros [Hc [Hsz Hk]] Hacc Hnum. unfold store_inv. cbn.
  split; [exact Hc |]. split; [rewrite map_size_insert_Some by (exists acc; exact Hacc); exact Hsz |].
  intros k a Hl. rewrite lookup_insert in Hl. case_decide as Heq.
  - subst k. injection Hl as <-. destruct (Hk id acc Hacc) as [Hn Hex].
    split; [congruence | exact Hex].
  - exact (Hk k a Hl).
Qed.

Lemma store_inv_create (s : Store) (ty : AccountType) (b : double) :
  store_inv s -> store_inv (snd (createAccount s ty b)).
Proof.
  intros Hinv. pose proof Hinv as [Hc [Hsz Hk]]. unfold createAccount.
  destruct (dlt b MINIMUM_BALANCE); [exact Hinv |].
  case_decide as Hfull; [exact Hinv |]. cbn.
  assert (Hfresh : accounts s !! account_number_of (accountCounter s + 1) = None).
  { destruct (accounts s !! account_number_of (accountCounter s + 1)) as [a |] eqn:E;
      [| reflexivity].
    destruct (Hk _ a E) as [_ [n [Hn Heq]]].
    apply account_number_of_inj in Heq; lia. }
  unfold store_inv. cbn. split; [lia |]. split.
  - rewrite map_size_insert_None by exact Hfresh. lia.
  - intros k a Hl. rewrite lookup_insert in Hl. case_decide as Heq.
    + subst k. injection Hl as <-. cbn. split; [reflexivity |].
      exists (accountCounter s + 1). split; [lia | reflexivity].
    + destruct (Hk k a Hl) as [Hn [n [Hr Hkn]]]. split; [exact Hn |].
      exists n. split; [lia | exact Hkn].
Qed.

Lemma store_inv_step (s : Store) (op : StoreOp) : store_inv s -> store_inv (step s op).
Proof.
  intros Hinv. destruct op as [ty b | id | id r | id | id tc v | id st | id r]; cbn.
  - apply store_inv_create. exact Hinv.
  - unfold activateAccount. destruct (accounts s !! id) as [acc |] eqn:E; [| exact Hinv].
    repeat case_match; cbn; try exact Hinv.
    apply (store_inv_replace _ _ acc); auto.
  - unfold suspendAccount. destruct (accounts s !! id) as [acc |] eqn:E; [| exact Hinv].
    case_match; cbn; [exact Hinv |]. apply (store_inv_replace _ _ acc); auto.
  - unfold deactivateAccount. destruct (accounts s !! id) as [acc |] eqn:E; [| exact Hinv].
    repeat case_match; cbn; try exact Hinv. apply (store_inv_replace _ _ acc); auto.
  - unfold evaluateAccountRisk. destruct (accounts s !! id) as [acc |] eqn:E; [| exact Hinv].
    repeat case_match; cbn; try exact Hinv; apply (store_inv_replace _ _ acc); auto.
  - unfold updateAccountStatus. destruct (accounts s !! id) as [acc |] eqn:E; [| exact Hinv].
    case_match; cbn; [exact Hinv |]. apply (store_inv_replace _ _ acc); auto.
  - unfold verifyAccount. destruct (accounts s !! id) as [acc |] eqn:E; [| exact Hinv].
    case_match; cbn; apply (store_inv_replace _ _ acc); auto.
Qed.

Lemma store_inv_run (ops : list StoreOp) :
  forall s, store_inv s -> store_inv (run s ops).
Proof.
  induction ops as [| op ops IH]; intros s Hs; [exact Hs |].
  cbn. apply IH. apply store_inv_step. exact Hs.
Qed.

(** X1: on any store reached from a fresh [AccountManager], [createAccount]
    either fails and changes nothing, or returns a number not yet in the
    map and adds exactly one PENDING_VERIFICATION record under it (zero
    risk score, unverified, no fraud alert). *)
Theorem createAccount_fresh_id (auditMode : bool) (ops : list StoreOp)
    (ty : AccountType) (b : double) :
  let s := run (init_store auditMode) ops in
  let '(num, s') := createAccount s ty b in
  (num = EmptyString /\ s' = s) \/
  (num <> EmptyString /\ accounts s !! num = None /\
   accounts s' = <[num := mkAccount num ty PENDING_VERIFICATION b d0 0 false false]> (accounts s)
   /\ size (accounts s') = S (size (accounts s))
   /\ suspendedAccountCount s' = suspendedAccountCount s).
Proof.
  cbv zeta.
  pose proof (store_inv_run ops _ (store_inv_init auditMode)) as Hinv.
  set (s := run (init_store auditMode) ops) in *.
  destruct Hinv as [Hc [Hsz Hk]].
  unfold createAccount.
  destruct (dlt b MINIMUM_BALANCE); [left; auto |].
  case_decide as Hfull; [left; auto |]. right.
  assert (Hfresh : accounts s !! account_number_of (accountCounter s + 1) = None).
  { destruct (accounts s !! account_number_of (accountCounter s + 1)) as [a |] eqn:E;
      [| reflexivity].
    destruct (Hk _ a E) as [_ [n [Hn Heq]]].
    apply account_number_of_inj in Heq; lia. }
  cbn. split; [apply account_number_of_nonempty |]. split; [exact Hfresh |].
  split; [reflexivity |]. split; [| reflexivity].
  apply map_size_insert_None. exact Hfresh.
Qed.

(** X2: on any store reached from a fresh [AccountManager], at most ten
    records are stored and every record sits under its own
    [accountNumber]. *)
Theorem store_shape (auditMode : bool) (ops : list StoreOp) :
  let s := run (init_store auditMode) ops in
  (size (accounts s) <= 10)%nat /\
  (forall k acc, accounts s !! k = Some acc -> accountNumber acc = k).
Proof.
  destruct (store_inv_run ops _ (store_inv_init auditMode)) as [_ [Hsz Hk]].
  split; [exact Hsz |]. intros k acc H. apply (Hk k acc H).
Qed.

(** X3: [createAccount] fails (returns the empty string and changes
    nothing) exactly when the initial balance compares below 0.01 or ten
    accounts are already stored. *)
Theorem createAccount_fails_iff (s : Store) (ty : AccountType) (b : double) :
  (fst (createAccount s ty b) = EmptyString <->
   dlt b (Fin (1 # 100)) = true \/ (10 <= size (accounts s))%nat) /\
  (fst (createAccount s ty b) = EmptyString -> snd (createAccount s ty b) = s).
Proof.
  unfold createAccount, MINIMUM_BALANCE, d_0_01, MAX_ACCOUNTS_PER_USER.
  destruct (dlt b (Fin (1 # 100))); [cbn; split; [split; auto | auto] |].
  case_decide as Hfull; cbn.
  - split; [split; auto | auto].
  - split; [| intros H; exfalso; apply (account_number_of_nonempty _ H)].
    split; [intros H; exfalso; apply (account_number_of_nonempty _ H) |].
    intros [H | H]; [discriminate | contradiction].
Qed.

(** A property of records kept by [set_status] and [set_isVerified] and
    true of every record [createAccount] accepts holds of every stored
    record along a run. *)
Section Records.

Variable P : Account -> Prop.
Variable ok : StoreOp -> bool.
Hypothesis P_status : forall a st, P a -> P (set_status a st).
Hypothesis P_verified : forall a v, P a -> P (set_isVerified a v).
Hypothesis P_create : forall ty b num, ok (OpCreate ty b) = true ->
  dlt b MINIMUM_BALANCE = false ->
  P (mkAccount num ty PENDING_VERIFICATION b d0 0 false false).





End Records.







(** X7: on a store reached from a fresh one by any sequence of
    operations, a string that [createAccount] cannot have produced (not
    "ACC" followed by the decimal digits of a number) names no account:
    the mutators return false, [evaluateAccountRisk] returns the CLOSED
    sentinel, [getAccount] gives nothing and [getAccountBalance] gives
    [-1.0], and none of them changes the store or any account in it. *)
Theorem unknown_id_no_effect (auditMode : bool) (ops : list StoreOp) (id reason : string)
    (tc : Z) (v : double) (st : AccountStatus) (r : bool) :
  (forall n, id <> account_number_of n) ->
  let s := run (init_store auditMode) ops in
  activateAccount s id = (false, s) /\ suspendAccount s id reason = (false, s) /\
  deactivateAccount s id = (false, s) /\ evaluateAccountRisk s id tc v = (CLOSED, s) /\
  updateAccountStatus s id st = (false, s) /\ verifyAccount s id r = (false, s) /\
  getAccount s id = None /\ getAccountBalance s id = Fin (-1).
Proof.
  intros Hid s.
  assert (H : accounts s !! id = None).
  { destruct (accounts s !! id) as [acc |] eqn:E; [| reflexivity].
    destruct (store_inv_run ops _ (store_inv_init auditMode)) as (_ & _ & Hk).
    destruct (Hk _ _ E) as (_ & n & _ & Hn). exfalso. exact (Hid n Hn). }
  unfold activateAccount, suspendAccount, deactivateAccount, evaluateAccountRisk,
    updateAccountStatus, verifyAccount, getAccount, getAccountBalance.
  rewrite H. repeat split.
Qed.

(** X8: a CLOSED account stays CLOSED under the status operations other
    than [evaluateAccountRisk]: activating, suspending and deactivating it
    fail and change nothing; [updateAccountStatus] to CLOSED succeeds and
    changes nothing, to any other status fails and changes nothing;
    [verifyAccount] fails and leaves the status CLOSED. *)
Theorem closed_account_stays_closed (s : Store) (id : string) (acc : Account) :
  accounts s !! id = Some acc -> status acc = CLOSED ->
  activateAccount s id = (false, s) /\
  (forall reason, suspendAccount s id reason = (false, s)) /\
  deactivateAccount s id = (false, s) /\
  updateAccountStatus s id CLOSED = (true, s) /\
  (forall st, st <> CLOSED -> updateAccountStatus s id st = (false, s)) /\
  (forall r, fst (verifyAccount s id r) = false /\
             status_of (snd (verifyAccount s id r)) id = Some CLOSED).
Proof.
  intros Hl Hst.
  unfold activateAccount, suspendAccount, deactivateAccount, updateAccountStatus,
    verifyAccount.
  rewrite Hl, Hst. cbn. split; [destruct (isVerified acc); reflexivity |].
  split; [reflexivity |]. split; [reflexivity |]. split.
  - assert (Hid : set_status acc CLOSED = acc)
      by (destruct acc; cbn in *; subst; reflexivity).
    rewrite Hid, insert_id by exact Hl. destruct s; reflexivity.
  - split.
    + intros st Hne. destruct st; cbn; try reflexivity. contradiction.
    + intros r. rewrite Hst. destruct r; cbn; (split; [reflexivity |]);
        unfold status_of; cbn; rewrite lookup_insert_eq; cbn; rewrite Hst; reflexivity.
Qed.

Lemma flag_points_set_status (a : Account) (st : AccountStatus) :
  flag_points (set_status a st) = flag_points a.
Proof. reflexivity. Qed.

(** X9: calling [evaluateAccountRisk] twice with the same inputs: an
    ACTIVE, PENDING_VERIFICATION or not-found result leaves the store
    unchanged, so the second call repeats it; a FROZEN result is repeated
    and the second call changes nothing more; a SUSPENDED result is
    repeated and the suspended counter grows by one on each call. *)
Theorem evaluateAccountRisk_twice (s : Store) (id : string) (tc : Z) (v : double) :
  let '(r, s1) := evaluateAccountRisk s id tc v in
  let '(r2, s2) := evaluateAccountRisk s1 id tc v in
  ((r = ACTIVE \/ r = PENDING_VERIFICATION \/ r = CLOSED) -> s1 = s /\ r2 = r /\ s2 = s) /\
  (r = FROZEN -> r2 = FROZEN /\ s2 = s1) /\
  (r = SUSPENDED -> r2 = SUSPENDED /\ status_of s2 id = Some SUSPENDED /\
                    suspendedAccountCount s2 = suspendedAccountCount s + 2).
Proof.
  unfold evaluateAccountRisk at 1.
  destruct (accounts s !! id) as [acc |] eqn:E.
  2: { unfold evaluateAccountRisk. rewrite E.
       split; [auto | split; intros; discriminate]. }
  destruct (Z.geb (0 + frequency_points tc + volume_points v + flag_points acc)
                  HIGH_RISK_THRESHOLD) eqn:E1;
    destruct (g_complianceAuditMode s) eqn:E2; cbn [andb].
  - unfold evaluateAccountRisk. cbn [accounts with_accounts g_complianceAuditMode].
    rewrite lookup_insert_eq. cbv beta iota. rewrite flag_points_set_status, E1, ?E2. cbn [andb].
    split; [intros [H | [H | H]]; discriminate |].
    split; [| intros H; discriminate].
    intros _. split; [reflexivity |]. unfold with_accounts. cbn.
    rewrite insert_insert_eq. reflexivity.
  - unfold evaluateAccountRisk. cbn [accounts with_accounts g_complianceAuditMode].
    rewrite lookup_insert_eq. cbv beta iota. rewrite flag_points_set_status, E1, ?E2. cbn [andb].
    split; [intros [H | [H | H]]; discriminate |].
    split; [intros H; discriminate |].
    intros _. split; [reflexivity |]. split.
    + unfold status_of. cbn. rewrite lookup_insert_eq. reflexivity.
    + cbn. lia.
  - destruct (Z.gtb (0 + frequency_points tc + volume_points v + flag_points acc) 50) eqn:E3;
      unfold evaluateAccountRisk; rewrite E, E1, E2, ?E3; cbn [andb]; rewrite ?E3;
      (split; [auto | split; intros; discriminate]).
  - destruct (Z.gtb (0 + frequency_points tc + volume_points v + flag_points acc) 50) eqn:E3;
      unfold evaluateAccountRisk; rewrite E, E1, E2, ?E3; cbn [andb]; rewrite ?E3;
      (split; [auto | split; intros; discriminate]).
Qed.

(** X10: an account awaiting verification cannot be activated after
    [verifyAccount(id, false)]; after [verifyAccount(id, true)], which
    returns true and sets ACTIVE, [activateAccount] succeeds. *)
Theorem verify_then_activate (s : Store) (id : string) (acc : Account) :
  accounts s !! id = Some acc -> status acc = PENDING_VERIFICATION ->
  fst (activateAccount (snd (verifyAccount s id false)) id) = false /\
  (let '(ok, s1) := verifyAccount s id true in
   ok = true /\ status_of s1 id = Some ACTIVE /\ fst (activateAccount s1 id) = true).
Proof.
  intros Hl Hst. unfold verifyAccount. rewrite Hl. cbn. rewrite Hst. cbn.
  unfold activateAccount, status_of. cbn. rewrite !lookup_insert_eq. cbn. rewrite ?Hst.
  split; [reflexivity | auto].
Qed.

(** X11: a FROZEN account is never reactivated by [activateAccount]; through
    [updateAccountStatus] it becomes ACTIVE exactly when it is verified and
    has no fraud alert. *)
Theorem frozen_reactivation (s : Store) (id : string) (acc : Account) :
  accounts s !! id = Some acc -> status acc = FROZEN ->
  activateAccount s id = (false, s) /\
  fst (updateAccountStatus s id ACTIVE) = isVerified acc && negb (hasFraudAlert acc).
Proof.
  intros Hl Hst. unfold activateAccount, updateAccountStatus. rewrite Hl, Hst. cbn.
  split; [destruct (isVerified acc); reflexivity |].
  destruct (isVerified acc), (hasFraudAlert acc); reflexivity.
Qed.

End StoreFacts.

(* ------------------------------------------------------------------ *)
(** ** Properties of the transaction engine *)

Module EngineFacts.

Import TransactionProcessor EngineTrace EngineProofs.
Local Open Scope Z_scope.


Lemma process_not_accepted (e : Engine) (c : option ComplianceLevel) (now : Z)
    (ty : TransactionType) (a : double) (src dst : string) :
  let '(r, e') := processTransaction e c now ty a src dst in
  accepted r = false -> e' = e.
Proof.
  unfold processTransaction, accepted.
  repeat (case_match; cbn -[dgt dle dlt dadd] in *); simplify_eq/=; intros;
    try discriminate; try congruence; try reflexivity; destruct e; reflexivity.
Qed.

Lemma compliance_passes (c : option ComplianceLevel) (a : double) :
  (forall lvl, c = Some lvl -> lvl <> BLOCKED /\ (lvl = HIGH_RISK -> dgt a (Fin 50000) = false)) ->
  match c with
  | None => false
  | Some lvl =>
      ComplianceLevel_eqb lvl BLOCKED
      || (ComplianceLevel_eqb lvl HIGH_RISK && dgt a (Fin 50000))
  end = false.
Proof.
  intros H. destruct c as [lvl |]; [| reflexivity].
  destruct (H lvl eq_refl) as [Hb Hh]. destruct lvl; cbn -[dgt]; try reflexivity.
  - rewrite Hh; reflexivity.
  - contradiction.
Qed.

Lemma valid_positive (a : double) (ty : TransactionType) :
  validateTransaction a ty = true -> is_nan a = false -> dgt a d0 = true.
Proof.
  intros Hv Hn. destruct a as [q | | |]; try discriminate; unfold validateTransaction in Hv;
    simpl in Hv; try discriminate.
  unfold MIN_TRANSACTION_AMOUNT, d_0_01 in Hv.
  destruct (Qle_bool (1 # 100) q) eqn:E1; simpl in Hv; [| discriminate].
  apply Qle_bool_true in E1. unfold dgt, dlt, d0.
  apply negb_true_iff, Qle_bool_false. lra.
Qed.

Lemma refund_valid_le (a : double) :
  validateTransaction a REFUND = true -> is_nan a = false -> dle a (Fin 10000) = true.
Proof.
  intros Hv Hn. destruct a as [q | | |]; try discriminate; unfold validateTransaction in Hv;
    simpl in Hv; try discriminate.
  unfold MIN_TRANSACTION_AMOUNT, MAX_TRANSACTION_AMOUNT, d_0_01 in Hv.
  destruct (Qle_bool (1 # 100) q); simpl in Hv; [| discriminate].
  destruct (Qle_bool q 1000000); simpl in Hv; [| discriminate].
  destruct (Qle_bool q 10000) eqn:E3; simpl in Hv; [exact E3 | discriminate].
Qed.




(** X14: a failed validation, a BLOCKED compliance level, or HIGH_RISK with
    an amount above 50,000 makes [processTransaction] return REJECTED and
    leave the engine as it was. *)
Theorem process_prechecks_reject (e : Engine) (c : option ComplianceLevel) (now : Z)
    (ty : TransactionType) (a : double) (src dst : string) :
  validateTransaction a ty = false \/ c = Some BLOCKED
  \/ (c = Some HIGH_RISK /\ dgt a (Fin 50000) = true) ->
  processTransaction e c now ty a src dst = (REJECTED, e).
Proof.
  intros H. unfold processTransaction.
  destruct (validateTransaction a ty) eqn:Hv; [| reflexivity]. cbn [negb].
  destruct H as [H | [H | [H Hg]]]; [discriminate | subst c; reflexivity |].
  subst c. cbn -[dgt]. rewrite Hg. reflexivity.
Qed.

(** X15: whenever [processTransaction] returns REJECTED or CANCELLED, the
    engine is left exactly as it was: no journal entry, no counter or
    daily-volume change. *)
Theorem process_rejected_unchanged (e : Engine) (c : option ComplianceLevel) (now : Z)
    (ty : TransactionType) (a : double) (src dst : string) :
  fst (processTransaction e c now ty a src dst) = REJECTED \/
  fst (processTransaction e c now ty a src dst) = CANCELLED ->
  snd (processTransaction e c now ty a src dst) = e.
Proof.
  pose proof (process_not_accepted e c now ty a src dst) as Hp.
  destruct (processTransaction e c now ty a src dst) as [r e']. cbn.
  intros Hr. apply Hp. destruct Hr; subst r; reflexivity.
Qed.

(** X16: a valid, non-NaN DEPOSIT that passes the compliance check is
    COMPLETED while fewer than 1000 transactions were counted today: it is
    journalled with the next id, its amount is added to the daily volume
    and the daily count grows by one; at 1000 or more it is REJECTED and
    nothing changes. *)
Theorem deposit_outcome (e : Engine) (c : option ComplianceLevel) (now : Z)
    (a : double) (src dst : string) :
  validateTransaction a DEPOSIT = true -> is_nan a = false ->
  (forall lvl, c = Some lvl -> lvl <> BLOCKED /\ (lvl = HIGH_RISK -> dgt a (Fin 50000) = false)) ->
  processTransaction e c now DEPOSIT a src dst =
  if Z.ltb (dailyTransactionCount e) 1000 then
    (COMPLETED,
     mkEngine (transactionHistory e
                 ++ [mkTransaction (transactionCounter e + 1) DEPOSIT a src dst now COMPLETED])
              (dadd (dailyVolume e) a) (dailyTransactionCount e + 1)
              (transactionCounter e + 1) (g_systemLocked e))
  else (REJECTED, e).
Proof.
  intros Hv Hn Hc. unfold processTransaction, MAX_DAILY_TRANSACTIONS.
  rewrite Hv. cbn [negb]. rewrite (compliance_passes c a Hc).
  rewrite (valid_positive a DEPOSIT Hv Hn). cbn [andb].
  destruct (dailyTransactionCount e <? 1000); [reflexivity |]. destruct e; reflexivity.
Qed.

(** X17: a valid, non-NaN REFUND that passes the compliance check is
    always COMPLETED and journalled, even when the daily count is at or
    above 1000; the daily count grows by one and the daily volume does not
    change. *)
Theorem refund_always_completes (e : Engine) (c : option ComplianceLevel) (now : Z)
    (a : double) (src dst : string) :
  validateTransaction a REFUND = true -> is_nan a = false ->
  (forall lvl, c = Some lvl -> lvl <> BLOCKED /\ (lvl = HIGH_RISK -> dgt a (Fin 50000) = false)) ->
  processTransaction e c now REFUND a src dst =
  (COMPLETED,
   mkEngine (transactionHistory e
               ++ [mkTransaction (transactionCounter e + 1) REFUND a src dst now COMPLETED])
            (dailyVolume e) (dailyTransactionCount e + 1)
            (transactionCounter e + 1) (g_systemLocked e)).
Proof.
  intros Hv Hn Hc. unfold processTransaction.
  rewrite Hv. cbn [negb]. rewrite (compliance_passes c a Hc).
  rewrite (valid_positive a REFUND Hv Hn), (refund_valid_le a Hv Hn). reflexivity.
Qed.

(** X18: once 1000 transactions have been counted today, every DEPOSIT and
    WITHDRAWAL is REJECTED and leaves the engine unchanged, whatever its
    amount or compliance level. *)
Theorem daily_limit_rejects (e : Engine) (c : option ComplianceLevel) (now : Z)
    (ty : TransactionType) (a : double) (src dst : string) :
  1000 <= dailyTransactionCount e -> ty = DEPOSIT \/ ty = WITHDRAWAL ->
  processTransaction e c now ty a src dst = (REJECTED, e).
Proof.
  intros Hn Hty. unfold processTransaction, MAX_DAILY_TRANSACTIONS.
  assert (Hlt : (dailyTransactionCount e <? 1000) = false) by (apply Z.ltb_ge; lia).
  assert (Hge : (dailyTransactionCount e >=? 1000) = true)
    by (rewrite Z.geb_le; lia).
  destruct (negb (validateTransaction a ty)); [reflexivity |].
  destruct (match c with
            | None => false
            | Some lvl => ComplianceLevel_eqb lvl BLOCKED
                          || (ComplianceLevel_eqb lvl HIGH_RISK && dgt a (Fin 50000))
            end); [reflexivity |].
  destruct Hty as [-> | ->]; rewrite Hlt, ?Hge, !andb_false_r; cbn; destruct e; reflexivity.
Qed.

(** X19: TRANSFER and REFUND calls never change the daily volume. *)
Theorem transfer_refund_keep_volume (e : Engine) (c : option ComplianceLevel) (now : Z)
    (ty : TransactionType) (a : double) (src dst : string) :
  ty = TRANSFER \/ ty = REFUND ->
  dailyVolume (snd (processTransaction e c now ty a src dst)) = dailyVolume e.
Proof.
  intros [-> | ->]; unfold processTransaction;
    repeat (case_match; cbn -[dgt dle dlt dadd executeTransfer] in *); simplify_eq/=;
    reflexivity.
Qed.

(** X20: while the system is locked, a TRANSFER through
    [processTransaction] (never urgent) is PENDING, REJECTED or CANCELLED:
    it is never COMPLETED or APPROVED. *)
Theorem locked_transfer_not_completed (e : Engine) (c : option ComplianceLevel) (now : Z)
    (a : double) (src dst : string) :
  g_systemLocked e = true ->
  let r := fst (processTransaction e c now TRANSFER a src dst) in
  r = PENDING \/ r = REJECTED \/ r = CANCELLED.
Proof.
  intros Hl. cbn zeta. unfold processTransaction, executeTransfer.
  rewrite Hl. cbn [andb negb].
  repeat (case_match; cbn -[dgt dle dlt dadd] in *); simplify_eq/=; auto.
Qed.

(** X21: [executeTransfer] returns COMPLETED only when both account ids are
    non-empty and different, the system is not locked, the amount is
    positive, fewer than 1000 transactions were counted today, and the
    daily volume plus the amount stays within 5,000,000. *)
Theorem executeTransfer_completed_requires (e : Engine) (a : double) (src dst : string)
    (isUrgent : bool) :
  executeTransfer e a src dst isUrgent = COMPLETED ->
  src <> EmptyString /\ dst <> EmptyString /\ src <> dst /\ g_systemLocked e = false /\
  dgt a d0 = true /\ dailyTransactionCount e < 1000 /\
  dle (dadd (dailyVolume e) a) (Fin 5000000) = true.
Proof.
  intros H. unfold executeTransfer, MAX_DAILY_TRANSACTIONS in H.
  destruct (String.eqb src EmptyString) eqn:E1; [discriminate |].
  destruct (String.eqb dst EmptyString) eqn:E2; [discriminate |]. cbn [orb] in H.
  destruct (String.eqb src dst) eqn:E3; [destruct (dgt a d0); discriminate |].
  apply String.eqb_neq in E1, E2, E3.
  destruct (isUrgent && dgt a (Fin 100000));
    [destruct (dailyTransactionCount e >=? 1000); [discriminate |];
     destruct (dgt (dadd (dailyVolume e) a) (Fin 5000000)); [discriminate |] |].
  all: destruct (g_systemLocked e), isUrgent; cbn [andb negb] in H; try discriminate.
  all: destruct (dgt a d0) eqn:E4, (dailyTransactionCount e <? 1000) eqn:E5,
         (dle (dadd (dailyVolume e) a) (Fin 5000000)) eqn:E6; cbn [andb] in H;
       try discriminate; apply Z.ltb_lt in E5; auto 10.
Qed.

End EngineFacts.

(* ------------------------------------------------------------------ *)
(** ** Concrete instances of the store properties *)

Module StoreWitnesses.

Import AccountManager AccountTrace StoreFacts Examples.StoreInputs.
Local Open Scope Z_scope.

(** One account opened with 100.0: at most ten records, keyed by number. *)
Lemma store_shape_witness :
  let s := run (init_store false) create100 in
  (size (accounts s) <= 10)%nat /\
  accounts s !! "ACC500001"
    = Some (mkAccount "ACC500001" CHECKING PENDING_VERIFICATION (Fin 100) d0 0 false false) /\
  accountNumber (mkAccount "ACC500001" CHECKING PENDING_VERIFICATION (Fin 100) d0 0 false false)
    = "ACC500001".
Proof.
  cbv zeta. destruct (store_shape false create100) as [H1 H2].
  assert (Hl : accounts (run (init_store false) create100) !! "ACC500001"
    = Some (mkAccount "ACC500001" CHECKING PENDING_VERIFICATION (Fin 100) d0 0 false false))
    by (vm_compute; reflexivity).
  split; [exact H1 | split; [exact Hl | exact (H2 _ _ Hl)]].
Defined.

(** An opening balance of 0.001 is refused and the store is kept. *)
Lemma createAccount_fails_iff_witness :
  fst (createAccount (init_store false) CHECKING (Fin (1 # 1000))) = EmptyString /\
  snd (createAccount (init_store false) CHECKING (Fin (1 # 1000))) = init_store false.
Proof.
  destruct (createAccount_fails_iff (init_store false) CHECKING (Fin (1 # 1000)))
    as [[_ H1] H2].
  assert (H : fst (createAccount (init_store false) CHECKING (Fin (1 # 1000))) = EmptyString)
    by (apply H1; left; reflexivity).
  split; [exact H | exact (H2 H)].
Defined.




(** On a store holding one account, every operation on "XYZ" fails and
    the store, with its account, is kept. *)
Lemma unknown_id_no_effect_witness :
  (forall n, "XYZ" <> account_number_of n) /\
  accounts (run (init_store false) create100) !! "ACC500001" = Some pending_acc /\
  activateAccount (run (init_store false) create100) "XYZ"
    = (false, run (init_store false) create100) /\
  evaluateAccountRisk (run (init_store false) create100) "XYZ" 200 (Fin 2000000)
    = (CLOSED, run (init_store false) create100).
Proof.
  assert (H : forall n, "XYZ" <> account_number_of n)
    by (intros n Hn; unfold account_number_of in Hn; cbn in Hn; discriminate).
  split; [exact H | split; [vm_compute; reflexivity |]].
  destruct (unknown_id_no_effect false create100 "XYZ" "r" 200 (Fin 2000000) ACTIVE true H)
    as (H1 & _ & _ & H4 & _).
  split; [exact H1 | exact H4].
Defined.

(** An account closed through [updateAccountStatus] cannot be activated. *)
Lemma closed_account_stays_closed_witness :
  let acc := mkAccount "ACC500001" CHECKING CLOSED (Fin 100) d0 0 false false in
  accounts (run (init_store false) close_ops) !! "ACC500001" = Some acc /\
  AccountManager.status acc = CLOSED /\
  activateAccount (run (init_store false) close_ops) "ACC500001"
    = (false, run (init_store false) close_ops).
Proof.
  cbv zeta.
  assert (Hl : accounts (run (init_store false) close_ops) !! "ACC500001"
    = Some (mkAccount "ACC500001" CHECKING CLOSED (Fin 100) d0 0 false false))
    by (vm_compute; reflexivity).
  split; [exact Hl | split; [reflexivity |]].
  destruct (closed_account_stays_closed _ _ _ Hl eq_refl) as [H _]. exact H.
Defined.

(** A fresh unverified account with 200 transactions and 2,000,000 volume
    is suspended on both evaluations and the counter reaches 2. *)
Lemma evaluateAccountRisk_twice_witness :
  let s := run (init_store false) create100 in
  let '(r, s1) := evaluateAccountRisk s "ACC500001" 200 (Fin 2000000) in
  let '(r2, s2) := evaluateAccountRisk s1 "ACC500001" 200 (Fin 2000000) in
  r = SUSPENDED /\ r2 = SUSPENDED /\ suspendedAccountCount s2 = 2.
Proof.
  cbv zeta.
  pose proof (evaluateAccountRisk_twice (run (init_store false) create100)
                "ACC500001" 200 (Fin 2000000)) as T.
  destruct (evaluateAccountRisk (run (init_store false) create100) "ACC500001" 200
              (Fin 2000000)) as [r s1] eqn:E1.
  destruct (evaluateAccountRisk s1 "ACC500001" 200 (Fin 2000000)) as [r2 s2].
  apply (f_equal fst) in E1. vm_compute in E1.
  destruct T as (_ & _ & T3). destruct (T3 (eq_sym E1)) as (A & _ & C).
  split; [exact (eq_sym E1) | split; [exact A |]]. rewrite C. vm_compute. reflexivity.
Defined.

(** A failed verification keeps the new account from being activated. *)
Lemma verify_then_activate_witness :
  accounts (run (init_store false) create100) !! "ACC500001" = Some pending_acc /\
  AccountManager.status pending_acc = PENDING_VERIFICATION /\
  fst (activateAccount (snd (verifyAccount (run (init_store false) create100)
                                           "ACC500001" false)) "ACC500001") = false.
Proof.
  assert (Hl : accounts (run (init_store false) create100) !! "ACC500001" = Some pending_acc)
    by (vm_compute; reflexivity).
  split; [exact Hl | split; [reflexivity |]].
  destruct (verify_then_activate _ _ _ Hl eq_refl) as [H _]. exact H.
Defined.

(** A frozen, unverified account is not reactivated by either route. *)
Lemma frozen_reactivation_witness :
  let acc := mkAccount "ACC500001" CHECKING FROZEN (Fin 100) d0 0 false false in
  accounts (run (init_store false) freeze_ops) !! "ACC500001" = Some acc /\
  AccountManager.status acc = FROZEN /\
  activateAccount (run (init_store false) freeze_ops) "ACC500001"
    = (false, run (init_store false) freeze_ops) /\
  fst (updateAccountStatus (run (init_store false) freeze_ops) "ACC500001" ACTIVE) = false.
Proof.
  cbv zeta.
  assert (Hl : accounts (run (init_store false) freeze_ops) !! "ACC500001"
    = Some (mkAccount "ACC500001" CHECKING FROZEN (Fin 100) d0 0 false false))
    by (vm_compute; reflexivity).
  split; [exact Hl | split; [reflexivity |]].
  destruct (frozen_reactivation _ _ _ Hl eq_refl) as [H1 H2].
  split; [exact H1 | rewrite H2; reflexivity].
Defined.

End StoreWitnesses.

(* ------------------------------------------------------------------ *)
(** ** Concrete instances of the engine properties *)

Module EngineWitnesses.

Import TransactionProcessor EngineTrace EngineFacts Examples.EngineInputs.
Local Open Scope Z_scope.

(** A deposit of 0.001 fails validation and is rejected. *)
Lemma process_prechecks_reject_witness :
  validateTransaction (Fin (1 # 1000)) DEPOSIT = false /\
  processTransaction (init_engine false) None 0 DEPOSIT (Fin (1 # 1000)) "S" "D"
    = (REJECTED, init_engine false).
Proof.
  assert (H : validateTransaction (Fin (1 # 1000)) DEPOSIT = false) by reflexivity.
  split; [exact H |].
  apply process_prechecks_reject. left. exact H.
Defined.

(** A transfer of 100 to the same account is rejected and changes nothing. *)
Lemma process_rejected_unchanged_witness :
  fst (processTransaction (init_engine false) None 0 TRANSFER (Fin 100) "S" "S") = REJECTED /\
  snd (processTransaction (init_engine false) None 0 TRANSFER (Fin 100) "S" "S")
    = init_engine false.
Proof.
  assert (H : fst (processTransaction (init_engine false) None 0 TRANSFER (Fin 100) "S" "S")
              = REJECTED) by (vm_compute; reflexivity).
  split; [exact H |].
  apply process_rejected_unchanged. left. exact H.
Defined.

Lemma low_risk_passes (a : double) :
  forall lvl, Some LOW_RISK = Some lvl ->
  lvl <> BLOCKED /\ (lvl = HIGH_RISK -> dgt a (Fin 50000) = false).
Proof. intros lvl H. injection H as <-. split; intros H; discriminate. Qed.

(** A LOW_RISK deposit of 100 on a fresh engine is completed. *)
Lemma deposit_outcome_witness :
  validateTransaction (Fin 100) DEPOSIT = true /\ is_nan (Fin 100) = false /\
  processTransaction (init_engine false) (Some LOW_RISK) 7 DEPOSIT (Fin 100) "S" "D"
  = (COMPLETED,
     mkEngine [mkTransaction 1001 DEPOSIT (Fin 100) "S" "D" 7 COMPLETED]
              (dadd d0 (Fin 100)) 1 1001 false).
Proof.
  split; [reflexivity | split; [reflexivity |]].
  rewrite (deposit_outcome (init_engine false) (Some LOW_RISK) 7 (Fin 100) "S" "D"
             eq_refl eq_refl (low_risk_passes (Fin 100))).
  reflexivity.
Defined.

(** A refund of 100 is completed although 1000 transactions were counted. *)
Lemma refund_always_completes_witness :
  validateTransaction (Fin 100) REFUND = true /\ is_nan (Fin 100) = false /\
  processTransaction full_day None 7 REFUND (Fin 100) "S" "D"
  = (COMPLETED,
     mkEngine [mkTransaction 1001 REFUND (Fin 100) "S" "D" 7 COMPLETED] d0 1001 1001 false).
Proof.
  split; [reflexivity | split; [reflexivity |]].
  rewrite (refund_always_completes full_day None 7 (Fin 100) "S" "D" eq_refl eq_refl
             (fun lvl H => match H with eq_refl => I end)).
  reflexivity.
Defined.

(** A deposit of 100 is rejected once 1000 transactions were counted. *)
Lemma daily_limit_rejects_witness :
  1000 <= dailyTransactionCount full_day /\
  processTransaction full_day None 7 DEPOSIT (Fin 100) "S" "D" = (REJECTED, full_day).
Proof.
  assert (H : 1000 <= dailyTransactionCount full_day) by (cbn; lia).
  split; [exact H |].
  apply daily_limit_rejects; [exact H | left; reflexivity].
Defined.

(** A completed transfer of 100 leaves the daily volume at 0. *)
Lemma transfer_refund_keep_volume_witness :
  dailyVolume (snd (processTransaction (init_engine false) None 7 TRANSFER (Fin 100) "S" "D"))
    = d0.
Proof.
  apply (transfer_refund_keep_volume (init_engine false) None 7 TRANSFER (Fin 100) "S" "D").
  left. reflexivity.
Defined.

(** On a locked engine a transfer of 100 is not completed. *)
Lemma locked_transfer_not_completed_witness :
  g_systemLocked (init_engine true) = true /\
  (fst (processTransaction (init_engine true) None 7 TRANSFER (Fin 100) "S" "D") = PENDING \/
   fst (processTransaction (init_engine true) None 7 TRANSFER (Fin 100) "S" "D") = REJECTED \/
   fst (processTransaction (init_engine true) None 7 TRANSFER (Fin 100) "S" "D") = CANCELLED).
Proof.
  split; [reflexivity |].
  exact (locked_transfer_not_completed (init_engine true) None 7 (Fin 100) "S" "D" eq_refl).
Defined.

(** A completed transfer of 100 on a fresh engine meets every condition. *)
Lemma executeTransfer_completed_requires_witness :
  executeTransfer (init_engine false) (Fin 100) "S" "D" false = COMPLETED /\
  "S" <> EmptyString /\ "D" <> EmptyString /\ "S" <> "D".
Proof.
  assert (H : executeTransfer (init_engine false) (Fin 100) "S" "D" false = COMPLETED)
    by (vm_compute; reflexivity).
  split; [exact H |].
  destruct (executeTransfer_completed_requires _ _ _ _ _ H) as (H1 & H2 & H3 & _).
  auto.
Defined.

End EngineWitnesses.
